(** * Learning-git: the data analyzer exercises

    A shallow embedding of the statistics scripts of the exercise folders
    ([exercises/github-actions/project/data_analyzer.py],
    [exercises/docker-intro/project/data_analyzer.py] and
    [exercises/02-branching/project/data_processor.py]) and the properties
    their specification states about them.

    Numbers.  The scripts compute on Python numbers.  A dataset entry is
    modelled as an exact rational ([Q]), standing for a finite float or an
    int; [round] is Python's decimal rounding (ties to even) on the exact
    value.  Not-a-number and the infinities have no counterpart here.

    Dictionaries.  The results mapping is an insertion-ordered dictionary
    (the CSV writer walks it in that order), modelled as an association
    list with Python's update discipline.  The configuration and the
    process environment are finite maps from names to values.

    Effects.  Console output, directory creation and file writes are
    recorded in a log; a Python exception is a value of [exn]. *)

From stdpp Require Import base option list strings pretty gmap.
From Stdlib Require Import ZArith QArith Qround Qabs Qpower Lia Lqa Sorted Permutation.
From Stdlib Require Import Ascii.

Local Open Scope Z_scope.
Local Open Scope Q_scope.

(** ** Numbers *)

Module Num.

(** [x < y] on Python numbers, as a boolean. *)
Definition ltb (x y : Q) : bool :=
  match Qcompare x y with Lt => true | _ => false end.

(** [10 ** k] for a natural exponent. *)
Definition pow10 (k : Z) : Q := inject_Z (10 ^ k).

(** The integer nearest to [x], a tie going to the even neighbour. *)
Definition round_half_even (x : Q) : Z :=
  let f := Qfloor x in
  match Qcompare (x - inject_Z f) (1 # 2) with
  | Lt => f
  | Gt => (f + 1)%Z
  | Eq => if Z.even f then f else (f + 1)%Z
  end.

(** Python's [round(x, ndigits)]: [x] rounded to a multiple of
    [10 ** -ndigits]; a negative [ndigits] rounds to tens, hundreds, ... *)
Definition round (x : Q) (ndigits : Z) : Q :=
  if (0 <=? ndigits)%Z
  then inject_Z (round_half_even (x * pow10 ndigits)) / pow10 ndigits
  else inject_Z (round_half_even (x / pow10 (- ndigits))) * pow10 (- ndigits).

(** [int(a / b)] for non-negative ints [a] and a positive int [b]: the true
    quotient is truncated.  The float quotient of two ints is the correctly
    rounded exact quotient, whose truncation is the integer quotient as long
    as [a] stays below 2^53, which a list length times 95 always does. *)
Definition int_div (a b : Z) : Z := Qfloor (inject_Z a / inject_Z b).

End Num.

(** ** Sorting and the [statistics] module *)

Module Stats.

(** Insertion of [x] in front of the first element that is not below it:
    only [<] is used and equal elements keep their order, as in Python's
    stable sort. *)
Fixpoint insert (x : Q) (l : list Q) : list Q :=
  match l with
  | [] => [x]
  | y :: l' => if Num.ltb y x then y :: insert x l' else x :: y :: l'
  end.

(** [sorted(data)]. *)
Definition sorted (data : list Q) : list Q := foldr insert [] data.

(** [sum(data)]. *)
Definition sum (data : list Q) : Q := foldr Qplus 0 data.

(** [len(data)] as a Python int. *)
Definition len {A} (l : list A) : Z := Z.of_nat (length l).

(** [statistics.mean]: the arithmetic mean (of a non-empty sequence). *)
Definition mean (data : list Q) : Q := sum data / inject_Z (len data).

(** [statistics.median]: the middle element of the sorted data, or the
    mean of the two middle elements when there is an even number of them. *)
Definition median (data : list Q) : Q :=
  let s := sorted data in
  let n := length data in
  if Nat.odd n then nth (n / 2)%nat s 0
  else (nth (n / 2 - 1)%nat s 0 + nth (n / 2)%nat s 0) / 2.

(** [min(data)] and [max(data)] of a non-empty sequence: the first
    smallest (largest) element. *)
Definition min_of (x : Q) (l : list Q) : Q :=
  fold_left (fun m y => if Num.ltb y m then y else m) l x.
Definition max_of (x : Q) (l : list Q) : Q :=
  fold_left (fun m y => if Num.ltb m y then y else m) l x.

(** [statistics.variance]: the sample variance, the squared deviations
    from the mean summed and divided by [n - 1] (Bessel's correction). *)
Definition variance (data : list Q) : Q :=
  let m := mean data in
  sum (map (fun x => (x - m) * (x - m)) data) / inject_Z (len data - 1).

End Stats.

(** ** Python values, dictionaries and exceptions *)

(** A value of the results mapping: an int (the counts) or a float. *)
Inductive value : Type :=
| VInt (n : Z)
| VFloat (x : Q).

(** The results mapping, in insertion order. *)
Definition dict : Type := list (string * value).

(** [d[k] = v]: an existing key keeps its place, a new key goes last. *)
Fixpoint dict_set (k : string) (v : value) (d : dict) : dict :=
  match d with
  | [] => [(k, v)]
  | (k', v') :: d' =>
      if String.eqb k k' then (k, v) :: d' else (k', v') :: dict_set k v d'
  end.

(** [d.get(k)]. *)
Fixpoint dict_get (k : string) (d : dict) : option value :=
  match d with
  | [] => None
  | (k', v) :: d' => if String.eqb k k' then Some v else dict_get k d'
  end.

(** [d.update(u)]. *)
Definition dict_update (d u : dict) : dict :=
  fold_left (fun acc kv => dict_set kv.1 kv.2 acc) u d.

(** A dictionary display [{k1: v1, ..., kn: vn}]. *)
Definition dict_of (kvs : list (string * value)) : dict := dict_update [] kvs.

(** A value of the configuration mapping. *)
Inductive cval : Type :=
| CInt (n : Z)
| CStr (s : string)
| CBool (b : bool).

(** The exceptions the scripts can meet. *)
Inductive exn : Type :=
| KeyError (key : string)
| UnboundLocalError (name : string)
| IndexError
| JSONDecodeError
| TypeError
| ValueError
| OSError
| OverflowError
| AttributeError
| ZeroDivisionError
| RecursionError
| StatisticsError.

(** What [json.load] finds in a file: a JSON document. *)
#[local] Unset Elimination Schemes.
Inductive json : Type :=
| JNull
| JBool (b : bool)
| JInt (n : Z)
| JFloat (x : Q)
| JStr (s : string)
| JArr (items : list json)
| JObj (members : list (string * json)).
#[local] Set Elimination Schemes.

(** The state of a path of the file system when it is read. *)
Inductive file : Type :=
| Absent                 (* [Path(p).exists()] is false *)
| Unreadable             (* [open] raises [OSError] *)
| Undecodable            (* reading raises [UnicodeDecodeError], a [ValueError] *)
| Malformed              (* the text is not JSON: [json.JSONDecodeError] *)
| Parsed (doc : json).   (* the text is the JSON document [doc] *)

(** Console messages. *)
Inductive msg : Type :=
| MBanner
| MConfiguration (cfg : gmap string cval)
| MRule (width : nat)
| MLoaded (n : Z)
| MErrorLoading (path : string)
| MNoDisplay
| MResultsHeader
| MRow (key : string) (v : value) (precision : option Z)
| MNoSave
| MUnsupported (fmt : cval)
| MSaved (dir : string) (name : string)
| MComplete (n : Z)
| MErrorDuring (e : exn).

(** Observable effects, in the order they happen. *)
Inductive event : Type :=
| EPrint (m : msg)
| EMkdir (dir : string)
| EOpen (dir : string) (name : string)
| EDumpJson (dir : string) (name : string) (results : dict) (indent : cval)
| EText (dir : string) (name : string) (line : string)
| ECsvRow (dir : string) (name : string) (key : string) (v : value)
| ECreateSampleData
| EValidateEnvironment.

(** A computation: the effects it had, then an exception or a result. *)
Definition M (A : Type) : Type := (list event * (exn + A))%type.

Definition ret {A} (a : A) : M A := ([], inr a).
Definition raise {A} (e : exn) : M A := ([], inl e).
Definition emit (ev : event) : M unit := ([ev], inr tt).
Definition print (m : msg) : M unit := emit (EPrint m).
Definition bind {A B} (m : M A) (f : A -> M B) : M B :=
  match m with
  | (l, inl e) => (l, inl e)
  | (l, inr a) => let r := f a in (l ++ r.1, r.2)
  end.
Definition lift {A} (r : exn + A) : M A := ([], r).

(** [try: m except (handled exceptions): h]. *)
Definition try_except {A} (m : M A) (handles : exn -> bool) (h : exn -> M A)
  : M A :=
  match m with
  | (l, inl e) => if handles e then let r := h e in (l ++ r.1, r.2) else m
  | _ => m
  end.

Notation "x <- m ;; k" := (bind m (fun x => k))
  (at level 200, m at level 99, k at level 200, only parsing).
Notation "m ;;; k" := (bind m (fun _ => k))
  (at level 200, k at level 200, only parsing).

(** The effects and the outcome of a computation. *)
Definition log_of {A} (m : M A) : list event := m.1.
Definition outcome {A} (m : M A) : exn + A := m.2.

(** [for x in l: body(x)]. *)
Fixpoint for_each {A} (l : list A) (body : A -> M unit) : M unit :=
  match l with
  | [] => ret tt
  | x :: l' => body x ;;; for_each l' body
  end.

(** ** Builtins *)

Module Py.

Definition is_space (c : ascii) : bool :=
  let n := N_of_ascii c in
  ((9 <=? n) && (n <=? 13))%N || (n =? 32)%N.

Definition digit (c : ascii) : option Z :=
  let n := Z.of_N (N_of_ascii c) in
  if ((48 <=? n) && (n <=? 57))%Z then Some (n - 48)%Z else None.

Fixpoint digits (acc : Z) (l : list ascii) : option Z :=
  match l with
  | [] => Some acc
  | c :: l' =>
      match digit c with
      | Some d => digits (10 * acc + d)%Z l'
      | None => None
      end
  end.

Fixpoint lstrip (l : list ascii) : list ascii :=
  match l with
  | c :: l' => if is_space c then lstrip l' else l
  | [] => []
  end.

Definition strip (l : list ascii) : list ascii :=
  rev (lstrip (rev (lstrip l))).

(** [int(s)] on a string: surrounding blanks, an optional sign, decimal
    digits ([None] is a [ValueError]).  Digit-group underscores and
    non-ASCII digits are not modelled. *)
Definition int_of_str (s : string) : option Z :=
  match strip (String.list_ascii_of_string s) with
  | [] => None
  | c :: r =>
      if Ascii.eqb c "-" then
        match r with [] => None | _ => Z.opp <$> digits 0 r end
      else if Ascii.eqb c "+" then
        match r with [] => None | _ => digits 0 r end
      else digits 0 (c :: r)
  end.

(** [s.lower()] on the ASCII letters. *)
Definition lower_ascii (c : ascii) : ascii :=
  let n := N_of_ascii c in
  if ((65 <=? n) && (n <=? 90))%N then ascii_of_N (n + 32) else c.
Definition lower (s : string) : string :=
  String.string_of_list_ascii (map lower_ascii (String.list_ascii_of_string s)).

(** [l[i]] on a list, with Python's negative indices. *)
Definition list_getitem (l : list Q) (i : Z) : M Q :=
  let j := if (i <? 0)%Z then (i + Stats.len l)%Z else i in
  if ((0 <=? j) && (j <? Stats.len l))%Z then ret (nth (Z.to_nat j) l 0)
  else raise IndexError.

(** [cfg[k]] on the configuration mapping. *)
Definition getitem (cfg : gmap string cval) (k : string) : M cval :=
  match cfg !! k with
  | Some v => ret v
  | None => raise (KeyError k)
  end.

(** A configuration value used where an int is needed ([round]'s second
    argument, [indent]): a bool is an int, a string a [TypeError]. *)
Definition as_int (v : cval) : M Z :=
  match v with
  | CInt n => ret n
  | CBool b => ret (Z.b2z b)
  | CStr _ => raise TypeError
  end.

(** [v == s] for a configuration value and a string literal. *)
Definition str_eq (v : cval) (s : string) : bool :=
  match v with
  | CStr t => String.eqb t s
  | _ => false
  end.

(** [Path(v)] on a configuration value: only a string is a path. *)
Definition as_path (v : cval) : M string :=
  match v with
  | CStr s => ret s
  | _ => raise TypeError
  end.

(** [d[k]] on a results mapping whose value is a float. *)
Definition getfloat (d : dict) (k : string) : M Q :=
  match dict_get k d with
  | Some (VFloat x) => ret x
  | Some (VInt n) => ret (inject_Z n)
  | None => raise (KeyError k)
  end.

(** [os.getenv(name, default)]. *)
Definition getenv (env : gmap string string) (name dflt : string) : string :=
  match env !! name with Some v => v | None => dflt end.

End Py.

(** ** The analyzer of the github-actions exercise *)

Module GithubActions.

(** The sample dataset [load_dataset] falls back to (tenths). *)
Definition sample_dataset : list Q :=
  [ 235 # 10; 182 # 10; 317 # 10; 451 # 10; 298 # 10; 164 # 10; 389 # 10; 523 # 10; 276 # 10; 412 # 10;
    198 # 10; 345 # 10; 281 # 10; 476 # 10; 229 # 10; 367 # 10; 334 # 10; 268 # 10; 421 # 10; 305 # 10;
    153 # 10; 487 # 10; 359 # 10; 214 # 10; 396 # 10; 251 # 10; 448 # 10; 323 # 10; 179 # 10; 462 # 10;
    128 # 10; 551 # 10; 374 # 10; 247 # 10; 439 # 10; 186 # 10; 502 # 10; 293 # 10; 358 # 10; 417 # 10;
    142 # 10; 495 # 10; 337 # 10; 264 # 10; 408 # 10; 201 # 10; 456 # 10; 319 # 10; 383 # 10; 427 # 10 ].

(** [load_default_config]: the defaults, each overridden by its
    environment variable. *)
Definition load_default_config (env : gmap string string)
  : M (gmap string cval) :=
  match Py.int_of_str (Py.getenv env "PRECISION" "2") with
  | None => raise ValueError
  | Some p =>
      ret (<["precision" := CInt p]>
          (<["output_format" := CStr (Py.getenv env "OUTPUT_FORMAT" "json")]>
          (<["analysis_mode" := CStr (Py.getenv env "ANALYSIS_MODE" "standard")]>
          (<["include_outliers" :=
               CBool (String.eqb
                        (Py.lower (Py.getenv env "INCLUDE_OUTLIERS" "true"))
                        "true")]>
          (<["output_dir" := CStr (Py.getenv env "OUTPUT_DIR" "./output")]>
           ∅)))))
  end.

(** [DataAnalyzer.__init__]: [self.config = config or
    self.load_default_config()]; a missing or empty [config] is falsy. *)
Definition init (config : option (gmap string cval))
    (env : gmap string string) : M (gmap string cval) :=
  match config with
  | Some c => if bool_decide (c = ∅) then load_default_config env else ret c
  | None => load_default_config env
  end.

(** The numeric entries of a JSON array, as floats:
    [[float(x) for x in data if isinstance(x, (int, float))]]; a bool is
    an int for [isinstance]. *)
Definition numeric_entry (x : json) : option Q :=
  match x with
  | JInt n => Some (inject_Z n)
  | JFloat q => Some q
  | JBool b => Some (inject_Z (Z.b2z b))
  | _ => None
  end.

(** Iterating over a JSON document and keeping the numbers: an array
    yields its items, an object its keys and a string its characters
    (none of them numbers); the other documents cannot be iterated. *)
Definition floats_of (doc : json) : M (list Q) :=
  match doc with
  | JArr items => ret (omap numeric_entry items)
  | JObj _ | JStr _ => ret []
  | _ => raise TypeError
  end.

(** [open(file_path)] followed by [json.load]. *)
Definition read_json (f : file) : M json :=
  match f with
  | Absent | Unreadable => raise OSError
  | Undecodable => raise ValueError
  | Malformed => raise JSONDecodeError
  | Parsed doc => ret doc
  end.

Definition exists_ (f : file) : bool :=
  match f with Absent => false | _ => true end.

(** The exceptions [load_dataset] handles. *)
Definition load_handles (e : exn) : bool :=
  match e with
  | JSONDecodeError | ValueError | TypeError => true
  | _ => false
  end.

(** [DataAnalyzer.load_dataset]. *)
Definition load_dataset (fs : string -> file) (file_path : option string)
  : M (list Q) :=
  let fallback := ret sample_dataset in
  match file_path with
  | Some p =>
      if negb (String.eqb p "") && exists_ (fs p) then
        r <- try_except
               (doc <- read_json (fs p) ;;
                data <- floats_of doc ;;
                ret (Some data))
               load_handles
               (fun _ => print (MErrorLoading p) ;;; ret None) ;;
        match r with
        | Some data => ret data
        | None => fallback
        end
      else fallback
  | None => fallback
  end.

(** The percentile ranks of the report and the key [f"p{p}"] of each. *)
Definition ranks : list Z := [25; 50; 75; 90; 95]%Z.
Definition pkey (p : Z) : string := "p" +:+ pretty p.

(** [max(0, min(int(n * p / 100), n - 1))]. *)
Definition index (n p : Z) : Z :=
  Z.max 0 (Z.min (Num.int_div (n * p) 100) (n - 1)).

(** [x < lower_bound or x > upper_bound]. *)
Definition is_outlier (lower_bound upper_bound x : Q) : bool :=
  Num.ltb x lower_bound || Num.ltb upper_bound x.

Section Analyzer.

(** [math.sqrt], which [statistics.stdev] applies to the variance. *)
Variable sqrt : Q -> Q.

(** [statistics.stdev]. *)
Definition stdev (data : list Q) : Q := sqrt (Stats.variance data).

(** [DataAnalyzer.calculate_basic_stats]. *)
Definition calculate_basic_stats (config : gmap string cval) (data : list Q)
  : M dict :=
  match data with
  | [] => ret []
  | x :: rest =>
      pv <- Py.getitem config "precision" ;;
      precision <- Py.as_int pv ;;
      let stats := dict_of
        [ ("count", VInt (Stats.len data));
          ("mean", VFloat (Num.round (Stats.mean data) precision));
          ("median", VFloat (Num.round (Stats.median data) precision));
          ("min", VFloat (Num.round (Stats.min_of x rest) precision));
          ("max", VFloat (Num.round (Stats.max_of x rest) precision)) ] in
      if (1 <? Stats.len data)%Z then
        let stats :=
          dict_set "std_dev" (VFloat (Num.round (stdev data) precision)) stats in
        let stats :=
          dict_set "variance"
            (VFloat (Num.round (Stats.variance data) precision)) stats in
        ret stats
      else ret stats
  end.

(** The percentile loop of [calculate_advanced_stats]. *)
Fixpoint percentile_loop (sorted_data : list Q) (n precision : Z)
    (ps : list Z) (percentiles : dict) : M dict :=
  match ps with
  | [] => ret percentiles
  | p :: ps' =>
      v <- Py.list_getitem sorted_data (index n p) ;;
      percentile_loop sorted_data n precision ps'
        (dict_set (pkey p) (VFloat (Num.round v precision)) percentiles)
  end.

(** [DataAnalyzer.calculate_advanced_stats]. *)
Definition calculate_advanced_stats (config : gmap string cval)
    (data : list Q) : M dict :=
  if (Stats.len data <? 4)%Z then ret []
  else
    pv <- Py.getitem config "precision" ;;
    precision <- Py.as_int pv ;;
    let sorted_data := Stats.sorted data in
    let n := Stats.len data in
    percentiles <- percentile_loop sorted_data n precision ranks [] ;;
    q1 <- Py.getfloat percentiles "p25" ;;
    q3 <- Py.getfloat percentiles "p75" ;;
    let iqr := Num.round (q3 - q1) precision in
    let lower_bound := q1 - (3 # 2) * iqr in
    let upper_bound := q3 + (3 # 2) * iqr in
    let outliers := List.filter (is_outlier lower_bound upper_bound) data in
    ret (dict_update percentiles
           [ ("iqr", VFloat iqr);
             ("outlier_count", VInt (Stats.len outliers));
             ("outlier_percentage",
              VFloat (Num.round
                        (inject_Z (Stats.len outliers) / inject_Z n * 100)
                        precision)) ]).

(** [DataAnalyzer.display_results].  A float is printed with the
    configured number of decimals, which the format refuses when it is
    negative. *)
Definition display_results (config : gmap string cval) (results : dict)
  : M unit :=
  match results with
  | [] => print MNoDisplay
  | _ =>
      print MResultsHeader ;;;
      print (MRule 50) ;;;
      for_each results (fun kv =>
        match kv.2 with
        | VFloat _ =>
            pv <- Py.getitem config "precision" ;;
            precision <- Py.as_int pv ;;
            if (precision <? 0)%Z then raise ValueError
            else print (MRow kv.1 kv.2 (Some precision))
        | VInt _ => print (MRow kv.1 kv.2 None)
        end) ;;;
      print (MRule 50)
  end.

(** [DataAnalyzer.save_results]. *)
Definition save_results (config : gmap string cval) (results : dict)
  : M unit :=
  match results with
  | [] => print MNoSave
  | _ =>
      dv <- Py.getitem config "output_dir" ;;
      output_dir <- Py.as_path dv ;;
      emit (EMkdir output_dir) ;;;
      output_format <- Py.getitem config "output_format" ;;
      if Py.str_eq output_format "json" then
        let output_file := "analysis_results.json" in
        emit (EOpen output_dir output_file) ;;;
        indent <- Py.getitem config "precision" ;;
        emit (EDumpJson output_dir output_file results indent) ;;;
        print (MSaved output_dir output_file)
      else if Py.str_eq output_format "csv" then
        let output_file := "analysis_results.csv" in
        emit (EOpen output_dir output_file) ;;;
        emit (EText output_dir output_file "metric,value") ;;;
        for_each results (fun kv =>
          emit (ECsvRow output_dir output_file kv.1 kv.2)) ;;;
        print (MSaved output_dir output_file)
      else print (MUnsupported output_format)
  end.

(** [self.config["analysis_mode"] in ["detailed", "advanced"]]. *)
Definition wants_advanced (mode : cval) : bool :=
  match mode with
  | CStr s => String.eqb s "detailed" || String.eqb s "advanced"
  | _ => false
  end.

(** [DataAnalyzer.analyze], from the results the instance holds; the
    value is the results mapping it holds afterwards. *)
Definition analyze (config : gmap string cval) (results : dict)
    (fs : string -> file) (data_file : option string) : M dict :=
  print MBanner ;;;
  print (MConfiguration config) ;;;
  print (MRule 60) ;;;
  dataset <- load_dataset fs data_file ;;
  print (MLoaded (Stats.len dataset)) ;;;
  basic_stats <- calculate_basic_stats config dataset ;;
  let results := dict_update results basic_stats in
  mode <- Py.getitem config "analysis_mode" ;;
  results <-
    (if wants_advanced mode then
       advanced_stats <- calculate_advanced_stats config dataset ;;
       ret (dict_update results advanced_stats)
     else ret results) ;;
  display_results config results ;;;
  save_results config results ;;;
  ret results.

(** The parsed command line. *)
Record args : Type := {
  arg_data : option string;
  arg_create_sample : bool;
  arg_validate_env : bool;
  arg_mode : option string;
  arg_output_format : option string;
  arg_precision : option Z
}.

(** The truth value of an optional string: [None] and [""] are falsy. *)
Definition truthy (s : option string) : bool :=
  match s with
  | Some s => negb (String.eqb s "")
  | None => false
  end.

(** The [config_overrides] mapping [main] builds from the command line. *)
Definition config_overrides (a : args) : gmap string cval :=
  let c : gmap string cval := ∅ in
  let c := match arg_mode a with
           | Some m => if truthy (Some m)
                       then <["analysis_mode" := CStr m]> c else c
           | None => c
           end in
  let c := match arg_output_format a with
           | Some f => if truthy (Some f)
                       then <["output_format" := CStr f]> c else c
           | None => c
           end in
  match arg_precision a with
  | Some p => <["precision" := CInt p]> c
  | None => c
  end.

(** The configuration the analyzer of [main] runs with:
    [DataAnalyzer(config_overrides if config_overrides else None)]. *)
Definition main_config (a : args) (env : gmap string string)
  : M (gmap string cval) :=
  let overrides := config_overrides a in
  init (if bool_decide (overrides = ∅) then None else Some overrides) env.

(** [main]; the value is what it returns, the exit code of the script
    ([None] exits with 0). *)
Definition main (a : args) (env : gmap string string) (fs : string -> file)
  : M (option Z) :=
  if arg_create_sample a then emit ECreateSampleData ;;; ret None
  else if arg_validate_env a then emit EValidateEnvironment ;;; ret None
  else
    config <- main_config a env ;;
    try_except
      (results <- analyze config [] fs (arg_data a) ;;
       print (MComplete (Stats.len results)) ;;;
       ret (Some (match results with [] => 1 | _ => 0 end)%Z))
      (fun _ => true)
      (fun e => print (MErrorDuring e) ;;; ret (Some 1%Z)).

End Analyzer.

End GithubActions.

(** ** The analyzer of the docker-intro exercise

    The same class one revision earlier.  [load_default_config],
    [__init__], [calculate_basic_stats] and [analyze] have the text of the
    github-actions revision; the functions below differ from it. *)

Module DockerIntro.

(** The sample dataset: the first forty entries of the later one. *)
Definition sample_dataset : list Q := take 40 GithubActions.sample_dataset.

Definition load_default_config := GithubActions.load_default_config.
Definition init := GithubActions.init.

(** [DataAnalyzer.load_dataset]: no exception is handled here. *)
Definition load_dataset (fs : string -> file) (file_path : option string)
  : M (list Q) :=
  match file_path with
  | Some p =>
      if negb (String.eqb p "") && GithubActions.exists_ (fs p) then
        doc <- GithubActions.read_json (fs p) ;;
        GithubActions.floats_of doc
      else ret sample_dataset
  | None => ret sample_dataset
  end.

Definition ranks : list Z := GithubActions.ranks.
Definition pkey := GithubActions.pkey.

(** [index = int(n * p / 100)], used as [sorted_data[min(index, n-1)]]. *)
Definition index (n p : Z) : Z := Z.min (Num.int_div (n * p) 100) (n - 1).

Section Analyzer.

Variable sqrt : Q -> Q.

Definition calculate_basic_stats := GithubActions.calculate_basic_stats sqrt.

Fixpoint percentile_loop (sorted_data : list Q) (n precision : Z)
    (ps : list Z) (percentiles : dict) : M dict :=
  match ps with
  | [] => ret percentiles
  | p :: ps' =>
      v <- Py.list_getitem sorted_data (index n p) ;;
      percentile_loop sorted_data n precision ps'
        (dict_set (pkey p) (VFloat (Num.round v precision)) percentiles)
  end.

(** [DataAnalyzer.calculate_advanced_stats]. *)
Definition calculate_advanced_stats (config : gmap string cval)
    (data : list Q) : M dict :=
  if (Stats.len data <? 4)%Z then ret []
  else
    pv <- Py.getitem config "precision" ;;
    precision <- Py.as_int pv ;;
    let sorted_data := Stats.sorted data in
    let n := Stats.len data in
    percentiles <- percentile_loop sorted_data n precision ranks [] ;;
    q1 <- Py.getfloat percentiles "p25" ;;
    q3 <- Py.getfloat percentiles "p75" ;;
    let iqr := Num.round (q3 - q1) precision in
    let lower_bound := q1 - (3 # 2) * iqr in
    let upper_bound := q3 + (3 # 2) * iqr in
    let outliers :=
      List.filter (GithubActions.is_outlier lower_bound upper_bound) data in
    ret (dict_update percentiles
           [ ("iqr", VFloat iqr);
             ("outlier_count", VInt (Stats.len outliers));
             ("outlier_percentage",
              VFloat (Num.round
                        (inject_Z (Stats.len outliers) / inject_Z n * 100)
                        precision)) ]).

(** [DataAnalyzer.display_results]: no test for empty results. *)
Definition display_results (config : gmap string cval) (results : dict)
  : M unit :=
  print MResultsHeader ;;;
  print (MRule 40) ;;;
  for_each results (fun kv =>
    match kv.2 with
    | VFloat _ =>
        pv <- Py.getitem config "precision" ;;
        precision <- Py.as_int pv ;;
        if (precision <? 0)%Z then raise ValueError
        else print (MRow kv.1 kv.2 (Some precision))
    | VInt _ => print (MRow kv.1 kv.2 None)
    end) ;;;
  print (MRule 40).

(** [DataAnalyzer.save_results]: [output_file] is bound in the two
    branches only, and read after them. *)
Definition save_results (config : gmap string cval) (results : dict)
  : M unit :=
  dv <- Py.getitem config "output_dir" ;;
  output_dir <- Py.as_path dv ;;
  emit (EMkdir output_dir) ;;;
  output_format <- Py.getitem config "output_format" ;;
  output_file <-
    (if Py.str_eq output_format "json" then
       let output_file := "analysis_results.json" in
       emit (EOpen output_dir output_file) ;;;
       indent <- Py.getitem config "precision" ;;
       emit (EDumpJson output_dir output_file results indent) ;;;
       ret (Some output_file)
     else if Py.str_eq output_format "csv" then
       let output_file := "analysis_results.csv" in
       emit (EOpen output_dir output_file) ;;;
       emit (EText output_dir output_file "metric,value") ;;;
       for_each results (fun kv =>
         emit (ECsvRow output_dir output_file kv.1 kv.2)) ;;;
       ret (Some output_file)
     else ret None) ;;
  match output_file with
  | Some f => print (MSaved output_dir f)
  | None => raise (UnboundLocalError "output_file")
  end.

(** [DataAnalyzer.analyze]. *)
Definition analyze (config : gmap string cval) (results : dict)
    (fs : string -> file) (data_file : option string) : M dict :=
  print MBanner ;;;
  print (MConfiguration config) ;;;
  print (MRule 60) ;;;
  dataset <- load_dataset fs data_file ;;
  print (MLoaded (Stats.len dataset)) ;;;
  basic_stats <- calculate_basic_stats config dataset ;;
  let results := dict_update results basic_stats in
  mode <- Py.getitem config "analysis_mode" ;;
  results <-
    (if GithubActions.wants_advanced mode then
       advanced_stats <- calculate_advanced_stats config dataset ;;
       ret (dict_update results advanced_stats)
     else ret results) ;;
  display_results config results ;;;
  save_results config results ;;;
  ret results.

End Analyzer.

End DockerIntro.

(** ** The entry point of the docker-intro exercise *)

Module DockerMain.

(** The parsed command line; [--mode] has the default ["standard"], so
    it is always a string. *)
Record args : Type := {
  arg_data : option string;
  arg_create_sample : bool;
  arg_mode : string
}.

(** The [config_overrides] mapping [main] builds. *)
Definition config_overrides (a : args) : gmap string cval :=
  if GithubActions.truthy (Some (arg_mode a))
  then <["analysis_mode" := CStr (arg_mode a)]> ∅
  else ∅.

Section Main.

Variable sqrt : Q -> Q.

(** [main]: the overrides are handed to [DataAnalyzer] as they are and no
    exception is handled.  The closing message (here "Found n metrics")
    is recorded as [MComplete]. *)
Definition main (a : args) (env : gmap string string) (fs : string -> file)
  : M unit :=
  if arg_create_sample a then emit ECreateSampleData
  else
    config <- DockerIntro.init (Some (config_overrides a)) env ;;
    results <- DockerIntro.analyze sqrt config [] fs (arg_data a) ;;
    print (MComplete (Stats.len results)).

End Main.

End DockerMain.

(** ** The data processor of the branching exercise *)

Module Branching.

Section Processor.

Variable sqrt : Q -> Q.

(** [calculate_statistics]: no rounding, a zero-filled report for no
    data, and [std_dev] always present. *)
Definition calculate_statistics (data : list Q) : dict :=
  match data with
  | [] =>
      dict_of [ ("count", VInt 0); ("mean", VFloat 0); ("median", VFloat 0);
                ("std_dev", VFloat 0); ("min", VFloat 0); ("max", VFloat 0) ]
  | x :: rest =>
      dict_of
        [ ("count", VInt (Stats.len data));
          ("mean", VFloat (Stats.mean data));
          ("median", VFloat (Stats.median data));
          ("std_dev", VFloat (if (1 <? Stats.len data)%Z
                              then sqrt (Stats.variance data) else 0));
          ("min", VFloat (Stats.min_of x rest));
          ("max", VFloat (Stats.max_of x rest)) ]
  end.

End Processor.

End Branching.

(** ** The processing workflow of the branching exercise *)

Module Processor.

(** An entry of the mixed dataset: a number, a string or [None]. *)
Inductive raw : Type :=
| RNum (x : Q)
| RStr (s : string)
| RNone.

(** [load_mixed_dataset]. *)
Definition load_mixed_dataset : list raw :=
  [ RNum (235 # 10); RNum (182 # 10); RStr "invalid"; RNum (317 # 10);
    RNum (451 # 10); RNone; RNum (298 # 10);
    RNum (164 # 10); RNum 999999; RNum (389 # 10); RNum (523 # 10);
    RNum (276 # 10); RNum (412 # 10); RStr "";
    RNum (198 # 10); RNum (345 # 10); RNum (281 # 10); RNum (476 # 10);
    RNum (229 # 10); RStr "N/A"; RNum (367 # 10) ].

(** What the workflow prints and writes, in order. *)
Inductive output : Type :=
| OBanner
| ORule
| OLoaded (n : Z)
| OSample (items : list raw)
| OFiltered (item : raw)
| OValid (n : Z)
| OHeader
| OCount (v : option value)
| OMean (v : option value)
| OMedian (v : option value)
| OStdDev (v : option value)
| ORange (least greatest : option value)
| ODump (path : string) (stats : dict) (indent : Z)
| OSaved
| ONoValid.

(** [item is not None and item != ""]. *)
Definition present (item : raw) : bool :=
  match item with
  | RNone => false
  | RStr s => negb (String.eqb s "")
  | RNum _ => true
  end.

Section Process.

Variable sqrt : Q -> Q.

(** [float(s)] on a string; [None] is its [ValueError]. *)
Variable float_of_str : string -> option Q.

(** [float(item)]; [None] is a [ValueError] or a [TypeError], which the
    loop handles alike. *)
Definition to_float (item : raw) : option Q :=
  match item with
  | RNum x => Some x
  | RStr s => float_of_str s
  | RNone => None
  end.

(** The filtering loop of [process_data], from the list collected so
    far: the collected numbers and the messages printed. *)
Fixpoint basic_filter (raw_data : list raw) (numeric_data : list Q)
  : list Q * list output :=
  match raw_data with
  | [] => (numeric_data, [])
  | item :: raw_data' =>
      if present item then
        match to_float item with
        | Some x => basic_filter raw_data' (numeric_data ++ [x])
        | None =>
            let r := basic_filter raw_data' numeric_data in
            (r.1, OFiltered item :: r.2)
        end
      else basic_filter raw_data' numeric_data
  end.

(** The body of [process_data] on the raw data it loaded.  A statistic
    is looked up by its key ([None] would be a [KeyError]). *)
Definition process (raw_data : list raw) : list output :=
  let filtered := basic_filter raw_data [] in
  let numeric_data := filtered.1 in
  [ OBanner; ORule; OLoaded (Stats.len raw_data); OSample (take 10 raw_data) ]
  ++ filtered.2
  ++ [ OValid (Stats.len numeric_data) ]
  ++ match numeric_data with
     | [] => [ ONoValid ]
     | _ =>
         let stats := Branching.calculate_statistics sqrt numeric_data in
         [ OHeader;
           OCount (dict_get "count" stats);
           OMean (dict_get "mean" stats);
           OMedian (dict_get "median" stats);
           OStdDev (dict_get "std_dev" stats);
           ORange (dict_get "min" stats) (dict_get "max" stats);
           ODump "validated_results.json" stats 2;
           OSaved ]
     end.

(** [process_data]. *)
Definition process_data : list output := process load_mixed_dataset.

End Process.

End Processor.

(** ** The specification's vocabulary *)

(** The nearest-rank index as the specification words it:
    [floor(n * p / 100)] clamped to [[0, n - 1]]. *)
Definition nearest_rank (n p : Z) : Z :=
  Z.max 0 (Z.min (n * p / 100) (n - 1)).

(** The element of the ascending data at the nearest rank of [p]. *)
Definition percentile (data : list Q) (p : Z) : Q :=
  nth (Z.to_nat (nearest_rank (Stats.len data) p)) (Stats.sorted data) 0.

(** The report of the advanced statistics, written out. *)
Definition advanced_report (data : list Q) (precision : Z) : dict :=
  let pv p := Num.round (percentile data p) precision in
  let iqr := Num.round (pv 75%Z - pv 25%Z) precision in
  let lower_bound := pv 25%Z - (3 # 2) * iqr in
  let upper_bound := pv 75%Z + (3 # 2) * iqr in
  let outliers :=
    List.filter (GithubActions.is_outlier lower_bound upper_bound) data in
  [ ("p25", VFloat (pv 25%Z)); ("p50", VFloat (pv 50%Z));
    ("p75", VFloat (pv 75%Z)); ("p90", VFloat (pv 90%Z));
    ("p95", VFloat (pv 95%Z)); ("iqr", VFloat iqr);
    ("outlier_count", VInt (Stats.len outliers));
    ("outlier_percentage",
     VFloat (Num.round
               (inject_Z (Stats.len outliers) / inject_Z (Stats.len data) * 100)
               precision)) ].

(** ** Sample inputs *)


(** The configuration of the test suite's [setup_method]. *)
Definition test_config : gmap string cval :=
  <["precision" := CInt 2]>
  (<["output_format" := CStr "json"]>
  (<["analysis_mode" := CStr "standard"]>
  (<["include_outliers" := CBool true]>
  (<["output_dir" := CStr "./test_output"]> ∅)))).

(** The dataset of [test_outlier_detection]. *)
Definition data_with_outliers : list Q := [1; 2; 3; 4; 5; 100; 200].

(** The command line [--mode advanced] and the command line without
    flags. *)
Definition cli_mode_advanced : GithubActions.args :=
  {| GithubActions.arg_data := None;
     GithubActions.arg_create_sample := false;
     GithubActions.arg_validate_env := false;
     GithubActions.arg_mode := Some "advanced";
     GithubActions.arg_output_format := None;
     GithubActions.arg_precision := None |}.
Definition cli_no_flags : GithubActions.args :=
  {| GithubActions.arg_data := None;
     GithubActions.arg_create_sample := false;
     GithubActions.arg_validate_env := false;
     GithubActions.arg_mode := None;
     GithubActions.arg_output_format := None;
     GithubActions.arg_precision := None |}.

(** Environments: [PRECISION=3] and [OUTPUT_FORMAT=xml]. *)
Definition env_precision_3 : gmap string string := <["PRECISION" := "3"]> ∅.
Definition env_format_xml : gmap string string := <["OUTPUT_FORMAT" := "xml"]> ∅.

(** A file system whose only file, [data.json], holds [[42]], and
    the command line [--data data.json]. *)
Definition fs_small : string -> file :=
  fun p => if String.eqb p "data.json"
           then Parsed (JArr [JInt 42]) else Absent.
Definition cli_data_file : GithubActions.args :=
  {| GithubActions.arg_data := Some "data.json";
     GithubActions.arg_create_sample := false;
     GithubActions.arg_validate_env := false;
     GithubActions.arg_mode := None;
     GithubActions.arg_output_format := None;
     GithubActions.arg_precision := None |}.

(** A JSON document Python cannot iterate over. *)
Definition scalar (doc : json) : bool :=
  match doc with
  | JNull | JBool _ | JInt _ | JFloat _ => true
  | _ => false
  end.

(** A square root for the examples: the root truncated to twelve
    decimals. *)
Definition sqrt12 (x : Q) : Q :=
  inject_Z (Z.sqrt (Qfloor (x * inject_Z (10 ^ 24)))) / inject_Z (10 ^ 12).

(** The five-point dataset of the test suite. *)
Definition test_data : list Q := [10; 20; 30; 40; 50].



(** An effect that is console output only. *)
Definition is_print (ev : event) : bool :=
  match ev with
  | EPrint _ => true
  | _ => false
  end.

(** A computation that touches no directory and no file. *)
Definition console_only {A} (m : M A) : Prop :=
  forallb is_print (log_of m) = true.

(** A file system with a three-point dataset in [points.json]. *)
Definition fs_points : string -> file :=
  fun p => if String.eqb p "points.json"
           then Parsed (JArr [JFloat 10; JFloat 20; JFloat 30]) else Absent.

(** The command line [--precision 4 --data points.json]. *)
Definition cli_precision_4 : GithubActions.args :=
  {| GithubActions.arg_data := Some "points.json";
     GithubActions.arg_create_sample := false;
     GithubActions.arg_validate_env := false;
     GithubActions.arg_mode := None;
     GithubActions.arg_output_format := None;
     GithubActions.arg_precision := Some 4%Z |}.




(** The test suite's configuration with the csv format, and a small
    results mapping. *)
Definition test_config_csv : gmap string cval :=
  <["output_format" := CStr "csv"]> test_config.
Definition two_metrics : dict := [("mean", VFloat 25); ("count", VInt 5)].

(** The configuration of [test_analysis_modes]: a mode and nothing
    else. *)
Definition config_mode_only : gmap string cval :=
  <["analysis_mode" := CStr "standard"]> ∅.


(** The docker-intro command line [--data points.json]. *)
Definition docker_cli_points : DockerMain.args :=
  {| DockerMain.arg_data := Some "points.json";
     DockerMain.arg_create_sample := false;
     DockerMain.arg_mode := "standard" |}.

(** A file system whose [config.json] holds a JSON object. *)
Definition fs_object : string -> file :=
  fun p => if String.eqb p "config.json"
           then Parsed (JObj [("values", JArr [JInt 1; JInt 2])]) else Absent.

(** A file system whose [broken.json] is not JSON. *)
Definition fs_broken : string -> file :=
  fun p => if String.eqb p "broken.json" then Malformed else Absent.

(** * Properties *)

(** ** Order, sorting and rounding *)



Lemma insert_length x l : length (Stats.insert x l) = S (length l).
Proof.
  induction l as [|y l IH]; simpl; [done|].
  destruct (Num.ltb y x); simpl; congruence.
Qed.

Lemma sorted_length l : length (Stats.sorted l) = length l.
Proof.
  induction l as [|x l IH]; simpl; [done|].
  unfold Stats.sorted in *. simpl. rewrite insert_length. congruence.
Qed.






(** *** Rounding *)











(** *** The percentile index *)

Lemma int_div_100 (a : Z) : Num.int_div a 100 = (a / 100)%Z.
Proof.
  unfold Num.int_div, Qfloor. cbn. by rewrite Z.mul_1_r.
Qed.

Lemma ga_index_spec n p :
  GithubActions.index n p = Z.max 0 (Z.min (n * p / 100) (n - 1)).
Proof. unfold GithubActions.index. by rewrite int_div_100. Qed.


Lemma index_range n p :
  (0 < n)%Z -> (0 <= Z.max 0 (Z.min (n * p / 100) (n - 1)) < n)%Z.
Proof. lia. Qed.


(** ** The computations as equations *)

Lemma bind_ret {A B} (a : A) (f : A -> M B) : bind (ret a) f = f a.
Proof. unfold bind, ret. simpl. by destruct (f a). Qed.

Lemma bind_raise {A B} (e : exn) (f : A -> M B) : bind (raise e) f = raise e.
Proof. done. Qed.

Lemma list_getitem_in_range (l : list Q) (i : Z) :
  (0 <= i < Stats.len l)%Z ->
  Py.list_getitem l i = ret (nth (Z.to_nat i) l 0).
Proof.
  intros [H0 H1]. unfold Py.list_getitem.
  destruct (Z.ltb_spec i 0); [lia|].
  destruct (Z.leb_spec 0 i); [|lia].
  destruct (Z.ltb_spec i (Stats.len l)); [done|lia].
Qed.

Lemma getitem_some (config : gmap string cval) k v :
  config !! k = Some v -> Py.getitem config k = ret v.
Proof. intros H. unfold Py.getitem. by rewrite H. Qed.

Lemma getitem_none (config : gmap string cval) k :
  config !! k = None -> Py.getitem config k = raise (KeyError k).
Proof. intros H. unfold Py.getitem. by rewrite H. Qed.

Lemma percentiles_layout (v25 v50 v75 v90 v95 : value) :
  dict_set (GithubActions.pkey 95) v95
    (dict_set (GithubActions.pkey 90) v90
       (dict_set (GithubActions.pkey 75) v75
          (dict_set (GithubActions.pkey 50) v50
             (dict_set (GithubActions.pkey 25) v25 []))))
  = [("p25", v25); ("p50", v50); ("p75", v75); ("p90", v90); ("p95", v95)].
Proof. reflexivity. Qed.

Lemma report_layout (x25 x75 : Q) (v50 v90 v95 vi vc vp : value) :
  let percentiles :=
    [("p25", VFloat x25); ("p50", v50); ("p75", VFloat x75); ("p90", v90);
     ("p95", v95)] in
  Py.getfloat percentiles "p25" = ret x25 /\
  Py.getfloat percentiles "p75" = ret x75 /\
  dict_update percentiles
    [("iqr", vi); ("outlier_count", vc); ("outlier_percentage", vp)]
  = percentiles ++
    [("iqr", vi); ("outlier_count", vc); ("outlier_percentage", vp)].
Proof. repeat split. Qed.

Lemma ga_percentile_loop (s : list Q) (n precision : Z) :
  (0 < n)%Z -> Stats.len s = n ->
  GithubActions.percentile_loop s n precision GithubActions.ranks []
  = ret (map (fun p => (GithubActions.pkey p,
                        VFloat (Num.round (nth (Z.to_nat (nearest_rank n p)) s 0)
                                  precision)))
           GithubActions.ranks).
Proof.
  intros Hn Hs. unfold GithubActions.ranks.
  cbn [GithubActions.percentile_loop map].
  rewrite !ga_index_spec. fold (nearest_rank n).
  rewrite !list_getitem_in_range, !bind_ret
    by (rewrite Hs; unfold nearest_rank; lia).
  by rewrite percentiles_layout.
Qed.


Lemma sorted_len data : Stats.len (Stats.sorted data) = Stats.len data.
Proof. unfold Stats.len. by rewrite sorted_length. Qed.

Lemma ga_advanced_stats_eq (config : gmap string cval) data precision :
  config !! "precision" = Some (CInt precision) ->
  (4 <= Stats.len data)%Z ->
  GithubActions.calculate_advanced_stats config data
  = ret (advanced_report data precision).
Proof.
  intros Hc Hn. unfold GithubActions.calculate_advanced_stats.
  destruct (Z.ltb_spec (Stats.len data) 4); [lia|].
  rewrite (getitem_some _ _ _ Hc), bind_ret. cbn [Py.as_int]. rewrite bind_ret.
  rewrite ga_percentile_loop by (rewrite ?sorted_len; lia).
  rewrite bind_ret. cbn [map GithubActions.ranks].
  change (GithubActions.pkey 25) with "p25".
  change (GithubActions.pkey 50) with "p50".
  change (GithubActions.pkey 75) with "p75".
  change (GithubActions.pkey 90) with "p90".
  change (GithubActions.pkey 95) with "p95".
  fold (percentile data 25) (percentile data 50) (percentile data 75)
    (percentile data 90) (percentile data 95).
  match goal with
  | |- context [Py.getfloat [("p25", VFloat ?a); ("p50", ?b); ("p75", VFloat ?c);
                             ("p90", ?d); ("p95", ?e)] "p25"] =>
      destruct (report_layout a c b d e (VInt 0) (VInt 0) (VInt 0)) as (E1 & E2 & _);
      rewrite E1, bind_ret, E2, bind_ret
  end.
  reflexivity.
Qed.



(** ** The claims *)



(** C7.  For a dataset of fewer than four points, the empty one included,
    the advanced statistics of both analyzers are the empty mapping: no
    percentile, IQR or outlier metric, whatever the configuration. *)
Theorem C7_small_dataset_no_advanced_stats
    (config : gmap string cval) (data : list Q) :
  (Stats.len data < 4)%Z ->
  GithubActions.calculate_advanced_stats config data = ret [] /\
  DockerIntro.calculate_advanced_stats config data = ret [].
Proof.
  intros Hn.
  unfold GithubActions.calculate_advanced_stats,
    DockerIntro.calculate_advanced_stats.
  by destruct (Z.ltb_spec (Stats.len data) 4); [|lia].
Qed.

Lemma C7_small_dataset_no_advanced_stats_witness :
  GithubActions.calculate_advanced_stats ∅ [10; 20; 30] = ret [] /\
  DockerIntro.calculate_advanced_stats ∅ [10; 20; 30] = ret [].
Proof.
  apply (C7_small_dataset_no_advanced_stats ∅ [10; 20; 30]).
  vm_compute. reflexivity.
Defined.







(** C3.  On the dataset [1, 2, 3, 4, 5, 100, 200] of the test suite, at
    the suite's precision 2, the analyzer reports p25 = 2 and p75 = 100,
    hence iqr = 98 and the bounds [-145, 247], which no value leaves:
    outlier_count is 0 and outlier_percentage is 0, where the claim and
    [test_outlier_detection] expect at least one outlier. *)
Theorem C3_outlier_example_counts_none :
  exists (report : dict) (p25 p75 iqr pct : Q),
    GithubActions.calculate_advanced_stats test_config data_with_outliers
    = ret report /\
    dict_get "p25" report = Some (VFloat p25) /\ p25 == 2 /\
    dict_get "p75" report = Some (VFloat p75) /\ p75 == 100 /\
    dict_get "iqr" report = Some (VFloat iqr) /\ iqr == 98 /\
    List.filter
      (GithubActions.is_outlier (p25 - (3 # 2) * iqr) (p75 + (3 # 2) * iqr))
      data_with_outliers = [] /\
    dict_get "outlier_count" report = Some (VInt 0) /\
    dict_get "outlier_percentage" report = Some (VFloat pct) /\ pct == 0.
Proof.
  exists (advanced_report data_with_outliers 2). eexists _, _, _, _.
  split; [by apply ga_advanced_stats_eq|].
  repeat split; vm_compute; reflexivity.
Qed.

(** ** Configuration resolution *)

(** Any override on the command line makes the overrides the whole
    configuration: the environment is not read. *)
Lemma main_config_overrides_only
    (a : GithubActions.args) (env : gmap string string) :
  GithubActions.config_overrides a <> ∅ ->
  GithubActions.main_config a env = ret (GithubActions.config_overrides a).
Proof.
  intros Hne. unfold GithubActions.main_config, GithubActions.init.
  rewrite bool_decide_eq_false_2 by done.
  by rewrite bool_decide_eq_false_2 by done.
Qed.


(** C2.  With [PRECISION=3] in the environment, the run without flags
    resolves precision 3 and the other options to their defaults, but the
    run with [--mode advanced] gets the configuration
    [{"analysis_mode": "advanced"}] alone: neither the environment nor the
    defaults are consulted, the lookup of the precision raises [KeyError]
    and the run ends with exit code 1. *)
Theorem C2_cli_flag_discards_environment_and_defaults
    (sqrt : Q -> Q) (fs : string -> file) :
  GithubActions.main_config cli_no_flags env_precision_3
  = ret (<["precision" := CInt 3]>
         (<["output_format" := CStr "json"]>
         (<["analysis_mode" := CStr "standard"]>
         (<["include_outliers" := CBool true]>
         (<["output_dir" := CStr "./output"]> ∅))))) /\
  GithubActions.main_config cli_mode_advanced env_precision_3
  = ret (<["analysis_mode" := CStr "advanced"]> ∅) /\
  GithubActions.main sqrt cli_mode_advanced env_precision_3 fs
  = ([ EPrint MBanner;
       EPrint (MConfiguration (<["analysis_mode" := CStr "advanced"]> ∅));
       EPrint (MRule 60);
       EPrint (MLoaded 50);
       EPrint (MErrorDuring (KeyError "precision")) ],
     inr (Some 1%Z)).
Proof.
  repeat split; vm_compute; reflexivity.
Qed.

(** ** Saving under an unsupported format *)

(** The github-actions revision reports the format and returns: the
    directory is made, no file is opened. *)
Lemma ga_save_unsupported
    (config : gmap string cval) (results : dict) (dir : string) (fmt : cval) :
  results <> [] ->
  config !! "output_dir" = Some (CStr dir) ->
  config !! "output_format" = Some fmt ->
  Py.str_eq fmt "json" = false ->
  Py.str_eq fmt "csv" = false ->
  GithubActions.save_results config results
  = ([EMkdir dir; EPrint (MUnsupported fmt)], inr tt).
Proof.
  intros Hr Hd Hf Hj Hc. unfold GithubActions.save_results.
  destruct results as [|kv results]; [done|].
  rewrite (getitem_some _ _ _ Hd), bind_ret. cbn [Py.as_path]. rewrite bind_ret.
  rewrite (getitem_some _ _ _ Hf), bind_ret. rewrite Hj, Hc. reflexivity.
Qed.

(** Under the json format the save step hands [json.dump] the results
    mapping as it is, for [analysis_results.json] in the output
    directory. *)
Lemma ga_save_json_writes_results
    (config : gmap string cval) (results : dict) (dir : string) (indent : cval) :
  results <> [] ->
  config !! "output_dir" = Some (CStr dir) ->
  config !! "output_format" = Some (CStr "json") ->
  config !! "precision" = Some indent ->
  GithubActions.save_results config results
  = ([ EMkdir dir;
       EOpen dir "analysis_results.json";
       EDumpJson dir "analysis_results.json" results indent;
       EPrint (MSaved dir "analysis_results.json") ],
     inr tt).
Proof.
  intros Hr Hd Hf Hp. unfold GithubActions.save_results.
  destruct results as [|kv results]; [done|].
  rewrite (getitem_some _ _ _ Hd), bind_ret. cbn [Py.as_path]. rewrite bind_ret.
  rewrite (getitem_some _ _ _ Hf), bind_ret.
  rewrite (getitem_some _ _ _ Hp). reflexivity.
Qed.

(** The docker-intro revision has no [else] branch: it goes on to print
    the name of a file it never bound. *)
Lemma docker_save_unsupported
    (config : gmap string cval) (results : dict) (dir : string) (fmt : cval) :
  config !! "output_dir" = Some (CStr dir) ->
  config !! "output_format" = Some fmt ->
  Py.str_eq fmt "json" = false ->
  Py.str_eq fmt "csv" = false ->
  DockerIntro.save_results config results
  = ([EMkdir dir], inl (UnboundLocalError "output_file")).
Proof.
  intros Hd Hf Hj Hc. unfold DockerIntro.save_results.
  rewrite (getitem_some _ _ _ Hd), bind_ret. cbn [Py.as_path]. rewrite bind_ret.
  rewrite (getitem_some _ _ _ Hf), bind_ret. rewrite Hj, Hc. reflexivity.
Qed.

(** C5.  Under [OUTPUT_FORMAT=xml] the github-actions run on a one-point
    file reports the unsupported format, opens no file and completes with
    exit code 0, as the claim says; the docker-intro analyzer on the same
    configuration and file reports nothing about the format and its
    [analyze] ends with [UnboundLocalError], the save step reading
    [output_file] unbound. *)
Theorem C5_docker_save_raises_on_unknown_format (sqrt : Q -> Q) :
  let docker_run :=
    bind (DockerIntro.init None env_format_xml)
      (fun config =>
         DockerIntro.analyze sqrt config [] fs_small (Some "data.json")) in
  let github_run :=
    GithubActions.main sqrt cli_data_file env_format_xml fs_small in
  outcome docker_run = inl (UnboundLocalError "output_file") /\
  ~ List.In (EPrint (MUnsupported (CStr "xml"))) (log_of docker_run) /\
  (forall dir name, ~ List.In (EOpen dir name) (log_of docker_run)) /\
  outcome github_run = inr (Some 0%Z) /\
  List.In (EPrint (MUnsupported (CStr "xml"))) (log_of github_run) /\
  (forall dir name, ~ List.In (EOpen dir name) (log_of github_run)).
Proof.
  intros docker_run github_run.
  vm_compute in docker_run. vm_compute in github_run.
  subst docker_run github_run. unfold outcome, log_of. cbn [fst snd].
  split; [reflexivity|].
  split; [cbn [List.In]; intuition discriminate|].
  split; [intros dir name; cbn [List.In]; intuition discriminate|].
  split; [reflexivity|].
  split; [cbn [List.In]; tauto|].
  intros dir name; cbn [List.In]; intuition discriminate.
Qed.

(** ** Loading the dataset *)

Lemma load_path_test (fs : string -> file) (p : string) :
  p <> "" ->
  negb (String.eqb p "") && GithubActions.exists_ (fs p)
  = GithubActions.exists_ (fs p).
Proof.
  intros Hp. by destruct (String.eqb_spec p "").
Qed.

(** The docker-intro revision handles nothing: a malformed file ends the
    load with the decoder's exception. *)
Lemma docker_load_malformed_raises (fs : string -> file) (p : string) :
  p <> "" -> fs p = Malformed ->
  DockerIntro.load_dataset fs (Some p) = raise JSONDecodeError.
Proof.
  intros Hp Hf. unfold DockerIntro.load_dataset.
  rewrite load_path_test by done. by rewrite Hf.
Qed.




(** ** Basic statistics *)



(** The report on the test suite's dataset, at precision 2. *)
Example basic_stats_test_data :
  exists report : dict,
    GithubActions.calculate_basic_stats sqrt12 test_config test_data
    = ret report /\
    dict_get "count" report = Some (VInt 5) /\
    (exists v, dict_get "mean" report = Some (VFloat v) /\ v == 30) /\
    (exists v, dict_get "median" report = Some (VFloat v) /\ v == 30) /\
    (exists v, dict_get "min" report = Some (VFloat v) /\ v == 10) /\
    (exists v, dict_get "max" report = Some (VFloat v) /\ v == 50) /\
    (exists v, dict_get "std_dev" report = Some (VFloat v) /\ v == 1581 # 100) /\
    (exists v, dict_get "variance" report = Some (VFloat v) /\ v == 250).
Proof.
  eexists. split; [vm_compute; reflexivity|].
  split; [reflexivity|].
  repeat split; eexists; (split; [reflexivity|done]).
Qed.




(** * Further properties of the analyzers *)

(** ** The basic report as an equation *)



(** ** Rounding error *)





(** ** Order between the statistics *)
















(** ** Percentiles against the basic statistics *)








(** ** Outcomes and logs of composed computations *)

Lemma outcome_bind {A B} (m : M A) (f : A -> M B) :
  outcome (bind m f)
  = match outcome m with
    | inl e => inl e
    | inr a => outcome (f a)
    end.
Proof. by destruct m as [l [e|a]]. Qed.

Lemma log_bind {A B} (m : M A) (f : A -> M B) :
  log_of (bind m f)
  = log_of m ++ match outcome m with
                | inl _ => []
                | inr a => log_of (f a)
                end.
Proof. destruct m as [l [e|a]]; simpl; [by rewrite app_nil_r|done]. Qed.

Lemma console_only_bind {A B} (m : M A) (f : A -> M B) :
  console_only m -> (forall a, console_only (f a)) ->
  console_only (bind m f).
Proof.
  unfold console_only. intros Hm Hf. rewrite log_bind, forallb_app, Hm.
  destruct (outcome m); [done|apply Hf].
Qed.

Lemma console_only_try_except {A} (m : M A) handles (h : exn -> M A) :
  console_only m -> (forall e, console_only (h e)) ->
  console_only (try_except m handles h).
Proof.
  unfold console_only. intros Hm Hh. destruct m as [l [e|a]]; [|done].
  unfold try_except. destruct (handles e); [|done].
  unfold log_of in *. cbn [fst] in *. by rewrite forallb_app, Hm, Hh.
Qed.

Lemma console_only_no_open {A} (m : M A) (dir name : string) :
  console_only m -> ~ List.In (EOpen dir name) (log_of m).
Proof.
  unfold console_only. intros Hm Hin.
  rewrite forallb_forall in Hm. by apply Hm in Hin.
Qed.

Lemma console_only_for_each {A} (l : list A) (body : A -> M unit) :
  (forall x, console_only (body x)) -> console_only (for_each l body).
Proof.
  intros Hb. induction l as [|x l IH]; [done|].
  cbn [for_each]. apply console_only_bind; [apply Hb|by intros _].
Qed.

Lemma console_only_getitem (config : gmap string cval) k :
  console_only (Py.getitem config k).
Proof. unfold Py.getitem. by destruct (config !! k). Qed.

Lemma console_only_as_int v : console_only (Py.as_int v).
Proof. by destruct v. Qed.

(** ** Loading *)

Lemma numeric_entries_of_floats (l : list Q) :
  omap GithubActions.numeric_entry (map JFloat l) = l.
Proof.
  induction l as [|x l IH]; [done|].
  change (x :: omap GithubActions.numeric_entry (map JFloat l) = x :: l).
  by rewrite IH.
Qed.

(** X6.  A dataset stored as a JSON array of floats loads back as itself, in
    both revisions of the analyzer and without console output. *)
Theorem load_dataset_round_trip
    (fs : string -> file) (p : string) (data : list Q) :
  p <> "" ->
  fs p = Parsed (JArr (map JFloat data)) ->
  GithubActions.load_dataset fs (Some p) = ret data /\
  DockerIntro.load_dataset fs (Some p) = ret data.
Proof.
  intros Hp Hf.
  unfold GithubActions.load_dataset, DockerIntro.load_dataset.
  rewrite load_path_test by done. rewrite Hf.
  rewrite <- (numeric_entries_of_floats data) at 3 6.
  split; reflexivity.
Qed.

Lemma load_dataset_round_trip_witness :
  GithubActions.load_dataset fs_points (Some "points.json") = ret [10; 20; 30] /\
  DockerIntro.load_dataset fs_points (Some "points.json") = ret [10; 20; 30].
Proof.
  apply (load_dataset_round_trip fs_points "points.json" [10; 20; 30]).
  - discriminate.
  - reflexivity.
Defined.

Lemma ga_load_console_only (fs : string -> file) (file_path : option string) :
  console_only (GithubActions.load_dataset fs file_path).
Proof.
  unfold GithubActions.load_dataset.
  destruct file_path as [p|]; [|done].
  destruct (negb (String.eqb p "") && GithubActions.exists_ (fs p)); [|done].
  destruct (fs p) as [| | | |doc]; try done.
  destruct doc; done.
Qed.

Lemma docker_load_console_only (fs : string -> file) (file_path : option string) :
  console_only (DockerIntro.load_dataset fs file_path).
Proof.
  unfold DockerIntro.load_dataset.
  destruct file_path as [p|]; [|done].
  destruct (negb (String.eqb p "") && GithubActions.exists_ (fs p)); [|done].
  destruct (fs p) as [| | | |doc]; try done.
  destruct doc; done.
Qed.

(** The exception a file makes the unguarded load of the docker-intro
    revision end with, if any. *)
Lemma docker_load_outcome (fs : string -> file) (p : string) :
  p <> "" ->
  DockerIntro.load_dataset fs (Some p)
  = match fs p with
    | Absent => ret DockerIntro.sample_dataset
    | Unreadable => raise OSError
    | Undecodable => raise ValueError
    | Malformed => raise JSONDecodeError
    | Parsed doc => GithubActions.floats_of doc
    end.
Proof.
  intros Hp. unfold DockerIntro.load_dataset.
  rewrite load_path_test by done.
  destruct (fs p) as [| | | |doc]; try done.
  unfold GithubActions.read_json. by rewrite bind_ret.
Qed.

(** ** Runs of the github-actions analyzer *)

Lemma outcome_print (m : msg) : outcome (print m) = inr tt.
Proof. done. Qed.

Lemma outcome_ret {A} (a : A) : outcome (ret a) = inr a.
Proof. done. Qed.

Ltac run_outcome :=
  repeat first
    [ rewrite outcome_bind
    | rewrite outcome_print
    | rewrite outcome_ret
    | match goal with
      | |- context [match outcome ?m with _ => _ end] =>
          let E := fresh "E" in destruct (outcome m) eqn:E
      end ].

Lemma console_only_basic_stats sqrt (config : gmap string cval) data :
  console_only (GithubActions.calculate_basic_stats sqrt config data).
Proof.
  unfold GithubActions.calculate_basic_stats. destruct data as [|x rest]; [done|].
  apply console_only_bind; [apply console_only_getitem|intros pv].
  apply console_only_bind; [apply console_only_as_int|intros precision].
  by destruct (1 <? _)%Z.
Qed.

Lemma console_only_list_getitem (l : list Q) (i : Z) :
  console_only (Py.list_getitem l i).
Proof. unfold Py.list_getitem. by destruct (_ && _). Qed.

Lemma console_only_getfloat (d : dict) k : console_only (Py.getfloat d k).
Proof. unfold Py.getfloat. by destruct (dict_get k d) as [[]|]. Qed.

Lemma console_only_ga_loop s n precision ps acc :
  console_only (GithubActions.percentile_loop s n precision ps acc).
Proof.
  revert acc. induction ps as [|p ps IH]; intros acc; [done|].
  cbn [GithubActions.percentile_loop].
  apply console_only_bind; [apply console_only_list_getitem|intros v].
  apply IH.
Qed.

Lemma console_only_ga_advanced (config : gmap string cval) data :
  console_only (GithubActions.calculate_advanced_stats config data).
Proof.
  unfold GithubActions.calculate_advanced_stats.
  destruct (_ <? 4)%Z; [done|].
  apply console_only_bind; [apply console_only_getitem|intros pv].
  apply console_only_bind; [apply console_only_as_int|intros precision].
  apply console_only_bind; [apply console_only_ga_loop|intros percentiles].
  apply console_only_bind; [apply console_only_getfloat|intros q1].
  apply console_only_bind; [apply console_only_getfloat|intros q3].
  done.
Qed.

Lemma console_only_ga_display (config : gmap string cval) results :
  console_only (GithubActions.display_results config results).
Proof.
  unfold GithubActions.display_results. destruct results as [|kv results]; [done|].
  apply console_only_bind; [done|intros _].
  apply console_only_bind; [done|intros _].
  apply console_only_bind; [|by intros _].
  apply console_only_for_each. intros [k v]. cbn [snd fst].
  destruct v; [done|].
  apply console_only_bind; [apply console_only_getitem|intros pv].
  apply console_only_bind; [apply console_only_as_int|intros precision].
  by destruct (precision <? 0)%Z.
Qed.

(** Without an output directory in the configuration the save step can
    only pass on empty results. *)
Lemma ga_save_without_output_dir (config : gmap string cval) results :
  config !! "output_dir" = None ->
  GithubActions.save_results config results
  = match results with
    | [] => print MNoSave
    | _ => raise (KeyError "output_dir")
    end.
Proof.
  intros Hd. unfold GithubActions.save_results.
  destruct results; [done|]. by rewrite (getitem_none _ _ Hd).
Qed.

Lemma ga_analyze_without_output_dir
    sqrt (config : gmap string cval) results fs file_path :
  config !! "output_dir" = None ->
  console_only (GithubActions.analyze sqrt config results fs file_path) /\
  forall r,
    outcome (GithubActions.analyze sqrt config results fs file_path) = inr r ->
    r = [].
Proof.
  intros Hd. split.
  - unfold GithubActions.analyze.
    do 3 (apply console_only_bind; [done|intros _]).
    apply console_only_bind; [apply ga_load_console_only|intros dataset].
    apply console_only_bind; [done|intros _].
    apply console_only_bind; [apply console_only_basic_stats|intros basic].
    apply console_only_bind; [apply console_only_getitem|intros mode].
    apply console_only_bind.
    { destruct (GithubActions.wants_advanced mode); [|done].
      apply console_only_bind; [apply console_only_ga_advanced|by intros]. }
    intros r.
    apply console_only_bind; [apply console_only_ga_display|intros _].
    apply console_only_bind; [|by intros _].
    rewrite ga_save_without_output_dir by done. by destruct r.
  - intros r. unfold GithubActions.analyze.
    run_outcome; try discriminate.
    match goal with
    | H : outcome (GithubActions.save_results config ?R) = inr _ |- _ =>
        rewrite ga_save_without_output_dir in H by done;
        destruct R; [|discriminate H]
    end.
    congruence.
Qed.

Lemma config_overrides_no_output_dir (a : GithubActions.args) :
  GithubActions.config_overrides a !! "output_dir" = None.
Proof.
  unfold GithubActions.config_overrides.
  destruct (GithubActions.arg_mode a) as [m|],
    (GithubActions.arg_output_format a) as [f|],
    (GithubActions.arg_precision a) as [p|];
    repeat match goal with
           | |- context [if ?b then _ else _] => destruct b
           end;
    by rewrite ?lookup_insert_ne by done.
Qed.

Lemma config_overrides_non_empty (a : GithubActions.args) :
  GithubActions.truthy (GithubActions.arg_mode a) = true \/
  GithubActions.truthy (GithubActions.arg_output_format a) = true \/
  GithubActions.arg_precision a <> None ->
  GithubActions.config_overrides a <> ∅.
Proof.
  unfold GithubActions.config_overrides.
  destruct (GithubActions.arg_mode a) as [m|],
    (GithubActions.arg_output_format a) as [f|],
    (GithubActions.arg_precision a) as [p|];
    intros [H|[H|H]];
    try discriminate H; try done;
    try rewrite H;
    repeat match goal with
           | |- context [if ?b then _ else _] => destruct b
           end;
    try apply insert_non_empty; try discriminate H.
Qed.

(** X7.  A run with any of [--mode], [--output-format] or [--precision] works
    with the overrides alone, which never name an output directory: it
    performs console output only and returns exit code 1, whatever the
    environment and the data file are. *)
Theorem main_with_override_exits_1
    (sqrt : Q -> Q) (a : GithubActions.args) (env : gmap string string)
    (fs : string -> file) :
  GithubActions.arg_create_sample a = false ->
  GithubActions.arg_validate_env a = false ->
  GithubActions.truthy (GithubActions.arg_mode a) = true \/
  GithubActions.truthy (GithubActions.arg_output_format a) = true \/
  GithubActions.arg_precision a <> None ->
  outcome (GithubActions.main sqrt a env fs) = inr (Some 1%Z) /\
  console_only (GithubActions.main sqrt a env fs) /\
  forall dir name,
    ~ List.In (EOpen dir name) (log_of (GithubActions.main sqrt a env fs)).
Proof.
  intros Hcs Hve Hflag.
  pose proof (config_overrides_non_empty a Hflag) as Hne.
  pose proof (config_overrides_no_output_dir a) as Hd.
  destruct (ga_analyze_without_output_dir sqrt
              (GithubActions.config_overrides a) [] fs
              (GithubActions.arg_data a) Hd) as [Hquiet Hempty].
  assert (Hmain :
    GithubActions.main sqrt a env fs
    = try_except
        (bind (GithubActions.analyze sqrt (GithubActions.config_overrides a)
                 [] fs (GithubActions.arg_data a))
           (fun results =>
              bind (print (MComplete (Stats.len results)))
                (fun _ => ret (Some (match results with
                                     | [] => 1
                                     | _ => 0
                                     end)%Z))))
        (fun _ => true)
        (fun e => bind (print (MErrorDuring e)) (fun _ => ret (Some 1%Z)))).
  { unfold GithubActions.main. rewrite Hcs, Hve.
    by rewrite main_config_overrides_only, bind_ret by done. }
  assert (Hq : console_only (GithubActions.main sqrt a env fs)).
  { rewrite Hmain. apply console_only_try_except; [|done].
    apply console_only_bind; [done|]. done. }
  split; [|split; [done|intros dir name; by apply console_only_no_open]].
  rewrite Hmain.
  destruct (GithubActions.analyze sqrt (GithubActions.config_overrides a)
              [] fs (GithubActions.arg_data a)) as [l [e|r]] eqn:E; [done|].
  by rewrite (Hempty r eq_refl).
Qed.

Lemma main_with_override_exits_1_witness :
  outcome (GithubActions.main sqrt12 cli_precision_4 env_format_xml fs_points)
  = inr (Some 1%Z) /\
  console_only
    (GithubActions.main sqrt12 cli_precision_4 env_format_xml fs_points) /\
  forall dir name,
    ~ List.In (EOpen dir name)
        (log_of (GithubActions.main sqrt12 cli_precision_4 env_format_xml
                   fs_points)).
Proof.
  apply (main_with_override_exits_1 sqrt12 cli_precision_4 env_format_xml
           fs_points).
  - reflexivity.
  - reflexivity.
  - right. right. discriminate.
Defined.



(** ** Complete runs *)
















(** ** What the save step writes *)

Lemma for_each_emit {A} (l : list A) (g : A -> event) :
  for_each l (fun x => emit (g x)) = (map g l, inr tt).
Proof.
  induction l as [|x l IH]; [done|].
  cbn [for_each]. rewrite IH. reflexivity.
Qed.

Lemma str_eq_true (v : cval) (s : string) :
  Py.str_eq v s = true -> v = CStr s.
Proof.
  destruct v as [|t|]; try discriminate. simpl.
  intros H. by apply String.eqb_eq in H as ->.
Qed.



(** X12.  The save step opens a file only for non-empty results under the json
    or the csv format, and then only [analysis_results.json] or
    [analysis_results.csv] in the configured output directory. *)
Theorem save_opens_only_the_report_file
    (config : gmap string cval) (results : dict) (dir name : string) :
  List.In (EOpen dir name)
    (log_of (GithubActions.save_results config results)) ->
  results <> [] /\
  config !! "output_dir" = Some (CStr dir) /\
  (config !! "output_format" = Some (CStr "json") /\
   name = "analysis_results.json" \/
   config !! "output_format" = Some (CStr "csv") /\
   name = "analysis_results.csv").
Proof.
  unfold GithubActions.save_results.
  destruct results as [|kv results]; [by intros [|]|].
  destruct (config !! "output_dir") as [dv|] eqn:Hd;
    [|rewrite (getitem_none _ _ Hd); by intros []].
  rewrite (getitem_some _ _ _ Hd), bind_ret.
  destruct dv as [|d|]; try by intros [].
  cbn [Py.as_path]. rewrite bind_ret.
  destruct (config !! "output_format") as [fmt|] eqn:Hf;
    [|rewrite (getitem_none _ _ Hf); by intros [|[]]].
  rewrite (getitem_some _ _ _ Hf).
  rewrite log_bind. cbn [outcome log_of emit fst snd]. rewrite bind_ret.
  destruct (Py.str_eq fmt "json") eqn:Ej.
  - apply str_eq_true in Ej as ->.
    rewrite log_bind. cbn [outcome log_of emit fst snd].
    intros [H|[H|H]]; [discriminate| |].
    + injection H as -> ->. auto.
    + exfalso. destruct (config !! "precision") as [pv|] eqn:Hp.
      * rewrite (getitem_some _ _ _ Hp), bind_ret in H.
        by destruct H as [|[|[]]].
      * rewrite (getitem_none _ _ Hp) in H. by destruct H.
  - destruct (Py.str_eq fmt "csv") eqn:Ec.
    + apply str_eq_true in Ec as ->.
      rewrite (for_each_emit (kv :: results)
                 (fun kv => ECsvRow d "analysis_results.csv" kv.1 kv.2)).
      cbn [log_of bind emit print fst snd app].
      intros [H|[H|[H|H]]]; [discriminate| |discriminate|].
      * injection H as -> ->. auto.
      * exfalso. rewrite ?app_nil_r in H.
        apply in_app_or in H as [H|H].
        -- apply in_map_iff in H as (? & ? & _). discriminate.
        -- by destruct H as [|[]].
    + by intros [|[|[]]].
Qed.

Lemma save_opens_only_the_report_file_witness :
  two_metrics <> [] /\
  test_config_csv !! "output_dir" = Some (CStr "./test_output") /\
  (test_config_csv !! "output_format" = Some (CStr "json") /\
   "analysis_results.csv" = "analysis_results.json" \/
   test_config_csv !! "output_format" = Some (CStr "csv") /\
   "analysis_results.csv" = "analysis_results.csv").
Proof.
  apply (save_opens_only_the_report_file test_config_csv two_metrics
           "./test_output" "analysis_results.csv").
  vm_compute. tauto.
Defined.

(** ** Runs that stop before the save step *)

Lemma console_only_bind_strong {A B} (m : M A) (f : A -> M B) :
  console_only m ->
  (forall a, outcome m = inr a -> console_only (f a)) ->
  console_only (bind m f).
Proof.
  unfold console_only. intros Hm Hf. rewrite log_bind, forallb_app, Hm.
  destruct (outcome m) as [e|a] eqn:E; [done|by apply Hf].
Qed.

Lemma console_only_raise_bind {A B} (m : M A) (f : A -> M B) (e : exn) :
  console_only m -> outcome m = inl e -> console_only (bind m f).
Proof.
  intros Hm He. apply console_only_bind_strong; [done|].
  intros a Ha. rewrite He in Ha. discriminate.
Qed.

Lemma basic_stats_without_precision
    sqrt (config : gmap string cval) (x : Q) (rest : list Q) :
  config !! "precision" = None ->
  GithubActions.calculate_basic_stats sqrt config (x :: rest)
  = raise (KeyError "precision").
Proof.
  intros Hc. unfold GithubActions.calculate_basic_stats.
  by rewrite (getitem_none _ _ Hc).
Qed.

(** X13.  An analysis under a configuration without a precision stops at the
    basic statistics as soon as the dataset has a point: it ends with
    [KeyError] for ["precision"], after console output only.  Both
    revisions behave so. *)
Theorem analyze_without_precision
    (sqrt : Q -> Q) (config : gmap string cval) (results : dict)
    (fs : string -> file) (file_path : option string) :
  config !! "precision" = None ->
  (forall x rest,
     outcome (GithubActions.load_dataset fs file_path) = inr (x :: rest) ->
     outcome (GithubActions.analyze sqrt config results fs file_path)
     = inl (KeyError "precision") /\
     console_only (GithubActions.analyze sqrt config results fs file_path)) /\
  (forall x rest,
     outcome (DockerIntro.load_dataset fs file_path) = inr (x :: rest) ->
     outcome (DockerIntro.analyze sqrt config results fs file_path)
     = inl (KeyError "precision") /\
     console_only (DockerIntro.analyze sqrt config results fs file_path)).
Proof.
  intros Hc. split; intros x rest Hl.
  - unfold GithubActions.analyze. split.
    + rewrite !outcome_bind, !outcome_print, Hl.
      rewrite outcome_bind, outcome_print, outcome_bind.
      by rewrite basic_stats_without_precision.
    + do 3 (apply console_only_bind; [done|intros _]).
      apply console_only_bind_strong; [apply ga_load_console_only|].
      intros dataset Hd. rewrite Hl in Hd. injection Hd as <-.
      apply console_only_bind; [done|intros _].
      eapply console_only_raise_bind; [apply console_only_basic_stats|].
      by rewrite basic_stats_without_precision.
  - unfold DockerIntro.analyze, DockerIntro.calculate_basic_stats. split.
    + rewrite !outcome_bind, !outcome_print, Hl.
      rewrite outcome_bind, outcome_print, outcome_bind.
      by rewrite basic_stats_without_precision.
    + do 3 (apply console_only_bind; [done|intros _]).
      apply console_only_bind_strong; [apply docker_load_console_only|].
      intros dataset Hd. rewrite Hl in Hd. injection Hd as <-.
      apply console_only_bind; [done|intros _].
      eapply console_only_raise_bind; [apply console_only_basic_stats|].
      by rewrite basic_stats_without_precision.
Qed.

Lemma analyze_without_precision_witness :
  (forall x rest,
     outcome (GithubActions.load_dataset fs_points (Some "points.json"))
     = inr (x :: rest) ->
     outcome (GithubActions.analyze sqrt12 config_mode_only [] fs_points
                (Some "points.json"))
     = inl (KeyError "precision") /\
     console_only (GithubActions.analyze sqrt12 config_mode_only [] fs_points
                     (Some "points.json"))) /\
  (forall x rest,
     outcome (DockerIntro.load_dataset fs_points (Some "points.json"))
     = inr (x :: rest) ->
     outcome (DockerIntro.analyze sqrt12 config_mode_only [] fs_points
                (Some "points.json"))
     = inl (KeyError "precision") /\
     console_only (DockerIntro.analyze sqrt12 config_mode_only [] fs_points
                     (Some "points.json"))).
Proof.
  apply (analyze_without_precision sqrt12 config_mode_only [] fs_points
           (Some "points.json")).
  reflexivity.
Defined.




Lemma console_only_docker_loop s n precision ps acc :
  console_only (DockerIntro.percentile_loop s n precision ps acc).
Proof.
  revert acc. induction ps as [|p ps IH]; intros acc; [done|].
  cbn [DockerIntro.percentile_loop].
  apply console_only_bind; [apply console_only_list_getitem|intros v].
  apply IH.
Qed.

Lemma console_only_docker_advanced (config : gmap string cval) data :
  console_only (DockerIntro.calculate_advanced_stats config data).
Proof.
  unfold DockerIntro.calculate_advanced_stats.
  destruct (_ <? 4)%Z; [done|].
  apply console_only_bind; [apply console_only_getitem|intros pv].
  apply console_only_bind; [apply console_only_as_int|intros precision].
  apply console_only_bind; [apply console_only_docker_loop|intros percentiles].
  apply console_only_bind; [apply console_only_getfloat|intros q1].
  apply console_only_bind; [apply console_only_getfloat|intros q3].
  done.
Qed.

Lemma console_only_docker_display (config : gmap string cval) results :
  console_only (DockerIntro.display_results config results).
Proof.
  unfold DockerIntro.display_results.
  apply console_only_bind; [done|intros _].
  apply console_only_bind; [done|intros _].
  apply console_only_bind; [|by intros _].
  apply console_only_for_each. intros [k v]. cbn [snd fst].
  destruct v; [done|].
  apply console_only_bind; [apply console_only_getitem|intros pv].
  apply console_only_bind; [apply console_only_as_int|intros precision].
  by destruct (precision <? 0)%Z.
Qed.



(** ** The entry point of the docker-intro exercise *)

Lemma docker_save_without_output_dir (config : gmap string cval) results :
  config !! "output_dir" = None ->
  DockerIntro.save_results config results = raise (KeyError "output_dir").
Proof.
  intros Hd. unfold DockerIntro.save_results.
  by rewrite (getitem_none _ _ Hd).
Qed.

Lemma docker_analyze_without_output_dir
    sqrt (config : gmap string cval) results fs file_path :
  config !! "output_dir" = None ->
  console_only (DockerIntro.analyze sqrt config results fs file_path) /\
  exists e,
    outcome (DockerIntro.analyze sqrt config results fs file_path) = inl e.
Proof.
  intros Hd. split.
  - unfold DockerIntro.analyze.
    do 3 (apply console_only_bind; [done|intros _]).
    apply console_only_bind; [apply docker_load_console_only|intros dataset].
    apply console_only_bind; [done|intros _].
    apply console_only_bind; [apply console_only_basic_stats|intros basic].
    apply console_only_bind; [apply console_only_getitem|intros mode].
    apply console_only_bind.
    { destruct (GithubActions.wants_advanced mode); [|done].
      apply console_only_bind; [apply console_only_docker_advanced|by intros]. }
    intros r.
    apply console_only_bind; [apply console_only_docker_display|intros _].
    apply console_only_bind; [|by intros _].
    by rewrite docker_save_without_output_dir.
  - unfold DockerIntro.analyze.
    run_outcome; try by eexists.
    match goal with
    | H : outcome (DockerIntro.save_results config ?R) = inr _ |- _ =>
        rewrite docker_save_without_output_dir in H by done; discriminate H
    end.
Qed.

(** X15.  The docker-intro entry point never completes an analysis: whatever
    the mode, the environment and the data file are, [main] ends with an
    exception after console output only, because the configuration it
    builds holds the mode and nothing else. *)
Theorem docker_main_never_completes
    (sqrt : Q -> Q) (a : DockerMain.args) (env : gmap string string)
    (fs : string -> file) :
  DockerMain.arg_create_sample a = false ->
  DockerMain.arg_mode a <> "" ->
  console_only (DockerMain.main sqrt a env fs) /\
  exists e, outcome (DockerMain.main sqrt a env fs) = inl e.
Proof.
  intros Hcs Hmode.
  assert (Hcfg : DockerMain.config_overrides a
                 = <["analysis_mode" := CStr (DockerMain.arg_mode a)]> ∅).
  { unfold DockerMain.config_overrides, GithubActions.truthy.
    by destruct (String.eqb_spec (DockerMain.arg_mode a) ""). }
  assert (Hinit : DockerIntro.init (Some (DockerMain.config_overrides a)) env
                  = ret (DockerMain.config_overrides a)).
  { unfold DockerIntro.init, GithubActions.init. rewrite Hcfg.
    rewrite bool_decide_eq_false_2; [done|apply insert_non_empty]. }
  assert (Hd : DockerMain.config_overrides a !! "output_dir" = None).
  { rewrite Hcfg. by rewrite lookup_insert_ne. }
  destruct (docker_analyze_without_output_dir sqrt
              (DockerMain.config_overrides a) [] fs (DockerMain.arg_data a) Hd)
    as [Hq [e He]].
  unfold DockerMain.main. rewrite Hcs, Hinit, bind_ret. split.
  - apply console_only_bind; [done|by intros].
  - exists e. by rewrite outcome_bind, He.
Qed.

Lemma docker_main_never_completes_witness :
  console_only (DockerMain.main sqrt12 docker_cli_points env_precision_3
                  fs_points) /\
  exists e,
    outcome (DockerMain.main sqrt12 docker_cli_points env_precision_3 fs_points)
    = inl e.
Proof.
  apply (docker_main_never_completes sqrt12 docker_cli_points env_precision_3
           fs_points).
  - reflexivity.
  - discriminate.
Defined.



(** ** The option that is never read *)

Lemma bind_ext {A B} (m : M A) (f g : A -> M B) :
  (forall a, f a = g a) -> bind m f = bind m g.
Proof. intros H. destruct m as [l [e|a]]; [done|]. simpl. by rewrite H. Qed.

Lemma for_each_ext {A} (l : list A) (f g : A -> M unit) :
  (forall x, f x = g x) -> for_each l f = for_each l g.
Proof.
  intros H. induction l as [|x l IH]; [done|].
  cbn [for_each]. rewrite H. apply bind_ext. by intros _.
Qed.

Lemma getitem_insert_ne (config : gmap string cval) (k k' : string) (v : cval) :
  k <> k' -> Py.getitem (<[k := v]> config) k' = Py.getitem config k'.
Proof. intros H. unfold Py.getitem. by rewrite lookup_insert_ne. Qed.

(** X16.  The [include_outliers] entry of the configuration has no effect:
    whatever its value, the statistics, the display and the save step are
    the same, outliers are counted all the same, and an analysis has the
    same outcome. *)
Theorem include_outliers_has_no_effect
    (sqrt : Q -> Q) (config : gmap string cval) (v : cval)
    (data : list Q) (results : dict)
    (fs : string -> file) (file_path : option string) :
  let config' := <["include_outliers" := v]> config in
  GithubActions.calculate_basic_stats sqrt config' data
  = GithubActions.calculate_basic_stats sqrt config data /\
  GithubActions.calculate_advanced_stats config' data
  = GithubActions.calculate_advanced_stats config data /\
  GithubActions.display_results config' results
  = GithubActions.display_results config results /\
  GithubActions.save_results config' results
  = GithubActions.save_results config results /\
  outcome (GithubActions.analyze sqrt config' results fs file_path)
  = outcome (GithubActions.analyze sqrt config results fs file_path).
Proof.
  intros config'. unfold config'.
  assert (Hb : forall d,
    GithubActions.calculate_basic_stats sqrt (<["include_outliers" := v]> config) d
    = GithubActions.calculate_basic_stats sqrt config d).
  { intros d. unfold GithubActions.calculate_basic_stats.
    by rewrite getitem_insert_ne. }
  assert (Ha : forall d,
    GithubActions.calculate_advanced_stats (<["include_outliers" := v]> config) d
    = GithubActions.calculate_advanced_stats config d).
  { intros d. unfold GithubActions.calculate_advanced_stats.
    by rewrite getitem_insert_ne. }
  assert (Hd : forall r,
    GithubActions.display_results (<["include_outliers" := v]> config) r
    = GithubActions.display_results config r).
  { intros r. unfold GithubActions.display_results.
    destruct r as [|kv r]; [done|].
    do 2 (apply bind_ext; intros _).
    f_equal. apply for_each_ext. intros [k w]. cbn [fst snd].
    destruct w; [done|]. by rewrite getitem_insert_ne. }
  assert (Hs : forall r,
    GithubActions.save_results (<["include_outliers" := v]> config) r
    = GithubActions.save_results config r).
  { intros r. unfold GithubActions.save_results.
    destruct r as [|kv r]; [done|].
    rewrite getitem_insert_ne by done.
    apply bind_ext; intros dv. apply bind_ext; intros output_dir.
    apply bind_ext; intros _.
    rewrite getitem_insert_ne by done.
    apply bind_ext; intros output_format.
    destruct (Py.str_eq output_format "json"); [|done].
    apply bind_ext; intros _. by rewrite getitem_insert_ne. }
  split; [apply Hb|]. split; [apply Ha|]. split; [apply Hd|].
  split; [apply Hs|].
  unfold GithubActions.analyze.
  repeat (rewrite ?outcome_bind, ?outcome_print, ?Hb, ?Ha, ?Hd, ?Hs;
          rewrite ?getitem_insert_ne by done;
          try match goal with
              | |- context [match outcome ?m with _ => _ end] =>
                  destruct (outcome m); [done|]
              end).
  done.
Qed.

(** ** The data processor's statistics *)


(** ** Data files that are not arrays of numbers *)

(** X18.  The docker-intro analysis ends with the reader's exception when the
    data file exists but cannot be opened, decoded or parsed, or holds a
    JSON scalar: only the three opening lines have been printed. *)
Theorem docker_analyze_propagates_load_errors
    (sqrt : Q -> Q) (config : gmap string cval) (results : dict)
    (fs : string -> file) (p : string) :
  p <> "" ->
  let opening :=
    [EPrint MBanner; EPrint (MConfiguration config); EPrint (MRule 60)] in
  let run := DockerIntro.analyze sqrt config results fs (Some p) in
  (fs p = Unreadable -> run = (opening, inl OSError)) /\
  (fs p = Undecodable -> run = (opening, inl ValueError)) /\
  (fs p = Malformed -> run = (opening, inl JSONDecodeError)) /\
  (forall doc, fs p = Parsed doc -> scalar doc = true ->
               run = (opening, inl TypeError)).
Proof.
  intros Hp opening run. subst run opening. unfold DockerIntro.analyze.
  rewrite (docker_load_outcome fs p Hp).
  repeat split.
  - by intros ->.
  - by intros ->.
  - by intros ->.
  - intros doc -> Hs. by destruct doc.
Qed.

Lemma docker_analyze_propagates_load_errors_witness :
  let opening :=
    [EPrint MBanner; EPrint (MConfiguration test_config); EPrint (MRule 60)] in
  let run :=
    DockerIntro.analyze sqrt12 test_config [] fs_broken (Some "broken.json") in
  (fs_broken "broken.json" = Unreadable -> run = (opening, inl OSError)) /\
  (fs_broken "broken.json" = Undecodable -> run = (opening, inl ValueError)) /\
  (fs_broken "broken.json" = Malformed ->
   run = (opening, inl JSONDecodeError)) /\
  (forall doc, fs_broken "broken.json" = Parsed doc -> scalar doc = true ->
               run = (opening, inl TypeError)).
Proof.
  apply (docker_analyze_propagates_load_errors sqrt12 test_config []
           fs_broken "broken.json").
  discriminate.
Defined.

(** X19.  A data file that holds a JSON object or a JSON string is read as a
    dataset without points: there is no fallback to the sample data and
    no warning, and the analysis, which needs the mode only, reports that
    there is nothing to display or to save and returns the empty
    mapping. *)
Theorem non_array_document_is_empty_dataset
    (sqrt : Q -> Q) (config : gmap string cval) (fs : string -> file)
    (p : string) (mode : cval) :
  p <> "" ->
  (exists members, fs p = Parsed (JObj members)) \/
  (exists s, fs p = Parsed (JStr s)) ->
  config !! "analysis_mode" = Some mode ->
  GithubActions.load_dataset fs (Some p) = ret [] /\
  DockerIntro.load_dataset fs (Some p) = ret [] /\
  GithubActions.analyze sqrt config [] fs (Some p)
  = ([ EPrint MBanner; EPrint (MConfiguration config); EPrint (MRule 60);
       EPrint (MLoaded 0); EPrint MNoDisplay; EPrint MNoSave ],
     inr []).
Proof.
  intros Hp Hdoc Hm.
  assert (Hga : GithubActions.load_dataset fs (Some p) = ret []).
  { unfold GithubActions.load_dataset. rewrite load_path_test by done.
    by destruct Hdoc as [[m ->]|[s ->]]. }
  assert (Hdk : DockerIntro.load_dataset fs (Some p) = ret []).
  { rewrite docker_load_outcome by done.
    by destruct Hdoc as [[m ->]|[s ->]]. }
  split; [done|]. split; [done|].
  unfold GithubActions.analyze. rewrite Hga.
  rewrite (getitem_some _ _ _ Hm).
  cbn [bind print emit ret fst snd app GithubActions.calculate_basic_stats].
  destruct (GithubActions.wants_advanced mode); reflexivity.
Qed.

Lemma non_array_document_is_empty_dataset_witness :
  GithubActions.load_dataset fs_object (Some "config.json") = ret [] /\
  DockerIntro.load_dataset fs_object (Some "config.json") = ret [] /\
  GithubActions.analyze sqrt12 test_config [] fs_object (Some "config.json")
  = ([ EPrint MBanner; EPrint (MConfiguration test_config); EPrint (MRule 60);
       EPrint (MLoaded 0); EPrint MNoDisplay; EPrint MNoSave ],
     inr []).
Proof.
  apply (non_array_document_is_empty_dataset sqrt12 test_config fs_object
           "config.json" (CStr "standard")).
  - discriminate.
  - left. by eexists.
  - reflexivity.
Defined.

(** ** The number of metrics *)



(** ** The processing workflow of the branching exercise *)

Section ProcessFacts.

Variable sqrt : Q -> Q.
Variable float_of_str : string -> option Q.

Lemma basic_filter_spec (raw_data : list Processor.raw) (acc : list Q) :
  exists kept : list Q,
    (Processor.basic_filter float_of_str raw_data acc).1 = acc ++ kept /\
    (forall x, List.In (Processor.RNum x) raw_data -> List.In x kept) /\
    (forall item,
       List.In (Processor.OFiltered item)
         (Processor.basic_filter float_of_str raw_data acc).2 ->
                  List.In item raw_data /\ Processor.present item = true /\
                  Processor.to_float float_of_str item = None) /\
    (length kept + length (Processor.basic_filter float_of_str raw_data acc).2
     + length (List.filter (fun i => negb (Processor.present i)) raw_data)
     = length raw_data)%nat.
Proof.
  revert acc. induction raw_data as [|item raw_data IH]; intros acc.
  - exists []. simpl. rewrite app_nil_r. repeat split; try done.
    all: by intros ? [].
  - cbn [Processor.basic_filter List.filter].
    destruct (Processor.present item) eqn:Hp; cbn [negb].
    + destruct (Processor.to_float float_of_str item) as [x|] eqn:Hf.
      * destruct (IH (acc ++ [x])) as (kept & H1 & H2 & H3 & H4).
        exists (x :: kept). rewrite H1, <- app_assoc. split; [done|].
        split; [|split].
        -- intros y [->|Hy]; [|right; by apply H2].
           left. simpl in Hf. by injection Hf.
        -- intros it Hit. destruct (H3 it Hit) as (? & ? & ?). auto with datatypes.
        -- simpl. lia.
      * destruct (IH acc) as (kept & H1 & H2 & H3 & H4).
        exists kept. cbn [fst snd]. split; [done|]. split; [|split].
        -- intros y [->|Hy]; [discriminate Hf|by apply H2].
        -- intros it [Hit|Hit].
           ++ injection Hit as <-. auto with datatypes.
           ++ destruct (H3 it Hit) as (? & ? & ?). auto with datatypes.
        -- simpl. lia.
    + destruct (IH acc) as (kept & H1 & H2 & H3 & H4).
      exists kept. split; [done|]. split; [|split].
      * intros y [->|Hy]; [discriminate Hp|by apply H2].
      * intros it Hit. destruct (H3 it Hit) as (? & ? & ?). auto with datatypes.
      * simpl. lia.
Qed.

Lemma basic_filter_messages
    (raw_data : list Processor.raw) (acc : list Q) (ev : Processor.output) :
  List.In ev (Processor.basic_filter float_of_str raw_data acc).2 ->
  exists item, ev = Processor.OFiltered item.
Proof.
  revert acc. induction raw_data as [|item raw_data IH]; intros acc;
    [by intros []|].
  cbn [Processor.basic_filter].
  destruct (Processor.present item); [|apply IH].
  destruct (Processor.to_float float_of_str item); [apply IH|].
  intros [<-|Hin]; [by eexists|by apply IH in Hin].
Qed.

(** X21.  The workflow accounts for every raw entry: it is kept as a number,
    reported as filtered out, or silently skipped as [None] or [""].
    Every numeric entry is kept, whatever its size; only present entries
    that do not convert are reported.  The results file is written
    exactly when some entry is kept, and holds the statistics of the kept
    numbers, whose count is their number. *)
Theorem process_data_accounting (raw_data : list Processor.raw) :
  let numeric_data := (Processor.basic_filter float_of_str raw_data []).1 in
  let messages := (Processor.basic_filter float_of_str raw_data []).2 in
  let run := Processor.process sqrt float_of_str raw_data in
  (Stats.len numeric_data + Stats.len messages
   + Stats.len (List.filter (fun i => negb (Processor.present i)) raw_data)
   = Stats.len raw_data)%Z /\
  (forall x, List.In (Processor.RNum x) raw_data -> List.In x numeric_data) /\
  (forall item, List.In (Processor.OFiltered item) messages ->
                List.In item raw_data /\ Processor.present item = true /\
                Processor.to_float float_of_str item = None) /\
  ((exists stats indent,
      List.In (Processor.ODump "validated_results.json" stats indent) run)
   <-> numeric_data <> []) /\
  (forall path stats indent,
     List.In (Processor.ODump path stats indent) run ->
     path = "validated_results.json" /\
     stats = Branching.calculate_statistics sqrt numeric_data /\
     dict_get "count" stats = Some (VInt (Stats.len numeric_data))).
Proof.
  intros numeric_data messages run.
  destruct (basic_filter_spec raw_data []) as (kept & H1 & H2 & H3 & H4).
  fold numeric_data in H1. fold messages in H3, H4. simpl in H1.
  assert (Hrun : forall path stats indent,
    List.In (Processor.ODump path stats indent) run ->
    numeric_data <> [] /\ path = "validated_results.json" /\
    stats = Branching.calculate_statistics sqrt numeric_data).
  { intros path stats indent Hin. unfold run, Processor.process in Hin.
    fold numeric_data messages in Hin.
    apply in_app_or in Hin as [Hin|Hin];
      [by repeat destruct Hin as [Hin|Hin]|].
    apply in_app_or in Hin as [Hin|Hin].
    { apply basic_filter_messages in Hin as [item Hin]. discriminate Hin. }
    apply in_app_or in Hin as [Hin|Hin]; [by destruct Hin as [|[]]|].
    destruct numeric_data as [|x l] eqn:E; [by destruct Hin as [|[]]|].
    split; [done|].
    repeat (destruct Hin as [Hin|Hin]; try discriminate Hin).
    - by injection Hin as <- <- <-.
    - destruct Hin. }
  split; [unfold Stats.len; rewrite H1; lia|].
  split; [intros x Hx; rewrite H1; by apply H2|].
  split; [done|].
  split; [split|].
  - intros (stats & indent & Hin). by destruct (Hrun _ _ _ Hin).
  - intros Hne. unfold run, Processor.process. fold numeric_data messages.
    exists (Branching.calculate_statistics sqrt numeric_data), 2%Z.
    apply in_or_app. right. apply in_or_app. right. apply in_or_app. right.
    destruct numeric_data; [done|]. simpl. tauto.
  - intros path stats indent Hin. destruct (Hrun _ _ _ Hin) as (Hne & -> & ->).
    split; [done|]. split; [done|].
    by destruct numeric_data.
Qed.

End ProcessFacts.
